(** * PythonPipes: partial application and piping over Python's iteration builtins

    A shallow embedding of [piped_map_filter_reduce.py] ([PartialBase], [emap],
    [efilter], [ereduce]) and of [piped_sorted_reversed_sum.py] ([PartialPipe],
    [FunctionPartialPipe], [esum], [esorted], [ereversed]), with the Python
    builtins they wrap, and the properties stated about them.

    Arguments are plain data, user functions over data, and the lazy objects
    that [map], [filter] and [reversed] return.  A Python method becomes a
    function that takes [self] and returns its outcome together with [self]
    as the call leaves it; an exception is a [Raise] outcome.  The builtins
    follow CPython 3.8: [map], [filter], [reduce] and [reversed] take no
    keyword, [sum] takes [start], [sorted] takes [key] and [reverse]. *)

From Stdlib Require Import ZArith String List Lia Sorted Permutation.
From stdpp Require Import gmap strings list fin_maps sorting.

Local Open Scope Z_scope.

(** ** Results and exceptions *)

(** The exceptions a call can end in: the builtins of this development only
    raise [TypeError]; a user function may raise anything else. *)
Inductive exn : Type :=
  | TypeError
  | Exception (name : string).

Inductive result (A : Type) : Type :=
  | Ok (a : A)
  | Raise (e : exn).

Arguments Ok {A} a.
Arguments Raise {A} e.

#[export] Instance result_ret : MRet result := fun A a => Ok a.
#[export] Instance result_bind : MBind result := fun A B k r =>
  match r with
  | Ok a => k a
  | Raise e => Raise e
  end.
#[export] Instance result_fmap : FMap result := fun A B g r =>
  match r with
  | Ok a => Ok (g a)
  | Raise e => Raise e
  end.

(** ** Python values *)

(** Plain data: what sequences hold and what user functions take and return. *)
#[warnings="-register-all"]
Inductive data : Type :=
  | DNone
  | DBool (b : bool)
  | DInt (n : Z)
  | DStr (s : string)
  | DList (items : list data)
  | DTuple (items : list data).

(** The lazy objects returned by [map], [filter] and [reversed]. *)
Inductive iter_kind : Type :=
  | MapObject
  | FilterObject
  | ReversedObject.

(** A value that can be passed as an argument.  A user function takes its
    positional arguments as data.  A lazy iterator over a finite source is the
    list of the outcomes of its successive [next()] calls, up to
    [StopIteration]: an item, or the exception raised while computing it. *)
Inductive value : Type :=
  | VData (d : data)
  | VFun (f : list data → result data)
  | VIter (k : iter_kind) (items : list (result data)).

Definition PyNone : value := VData DNone.
Definition pyint (n : Z) : value := VData (DInt n).
Definition pybool (b : bool) : value := VData (DBool b).
Definition pylist (l : list data) : value := VData (DList l).
Definition ints (l : list Z) : list data := DInt <$> l.

(** Keyword arguments: a [dict] with string keys. *)
Abbreviation kwdict := (gmap string value).

(** [{**d1, **d2}]: on a key of both, the value of [d2] wins. *)
Definition dict_merge (d1 d2 : kwdict) : kwdict := d2 ∪ d1.

(** [bool(x)] on data. *)
Definition data_truthy (d : data) : bool :=
  match d with
  | DNone => false
  | DBool b => b
  | DInt n => negb (n =? 0)
  | DStr s => match s with EmptyString => false | String _ _ => true end
  | DList l | DTuple l => match l with [] => false | _ => true end
  end.

(** [bool(x)]: functions and iterators define neither [__bool__] nor
    [__len__] and are true. *)
Definition truthy (v : value) : bool :=
  match v with
  | VData d => data_truthy d
  | VFun _ | VIter _ _ => true
  end.

(** [hasattr(x, "__iter__")]. *)
Definition hasattr_iter (v : value) : bool :=
  match v with
  | VData (DStr _) | VData (DList _) | VData (DTuple _) => true
  | VData _ => false
  | VFun _ => false
  | VIter _ _ => true
  end.

Fixpoint chars (s : string) : list data :=
  match s with
  | EmptyString => []
  | String c s' => DStr (String c EmptyString) :: chars s'
  end.

(** [iter(x)]: the outcomes of the successive [next()] calls. *)
Definition iter (v : value) : result (list (result data)) :=
  match v with
  | VData (DList l) | VData (DTuple l) => Ok (Ok <$> l)
  | VData (DStr s) => Ok (Ok <$> chars s)
  | VIter _ items => Ok items
  | VData _ | VFun _ => Raise TypeError
  end.

(** Running an iterator to its end: the first exception stops it. *)
Fixpoint consume (items : list (result data)) : result (list data) :=
  match items with
  | [] => Ok []
  | Raise e :: _ => Raise e
  | Ok x :: items' => cons x <$> consume items'
  end.

Definition as_data (v : value) : option data :=
  match v with
  | VData d => Some d
  | _ => None
  end.

(** Calling [f] on the arguments [xs]: data and iterators are not callable;
    a user function takes data. *)
Definition call_function (f : value) (xs : list value) : result data :=
  match f with
  | VFun g =>
      match mapM as_data xs with
      | Some ds => g ds
      | None => Raise TypeError
      end
  | VData _ | VIter _ _ => Raise TypeError
  end.

(** ** Operators on data *)

(** Booleans are integers: [True == 1]. *)
Definition as_number (d : data) : option Z :=
  match d with
  | DBool b => Some (if b then 1 else 0)
  | DInt n => Some n
  | _ => None
  end.

(** [a == b]. *)
Fixpoint py_eq (a b : data) : bool :=
  let fix all_eq (xs ys : list data) : bool :=
    match xs, ys with
    | [], [] => true
    | x :: xs', y :: ys' => py_eq x y && all_eq xs' ys'
    | _, _ => false
    end in
  match a, b with
  | DNone, DNone => true
  | DStr s, DStr t => String.eqb s t
  | DList xs, DList ys => all_eq xs ys
  | DTuple xs, DTuple ys => all_eq xs ys
  | _, _ =>
      match as_number a, as_number b with
      | Some m, Some n => m =? n
      | _, _ => false
      end
  end.

(** [a < b]: numbers by value, strings and sequences lexicographically (the
    first pair of unequal elements decides, else the shorter one is smaller);
    any other pair of types is not orderable. *)
Fixpoint py_lt (a b : data) : result bool :=
  let fix lex_lt (xs ys : list data) : result bool :=
    match xs, ys with
    | _, [] => Ok false
    | [], _ :: _ => Ok true
    | x :: xs', y :: ys' => if py_eq x y then lex_lt xs' ys' else py_lt x y
    end in
  match a, b with
  | DStr s, DStr t => Ok (String.ltb s t)
  | DList xs, DList ys => lex_lt xs ys
  | DTuple xs, DTuple ys => lex_lt xs ys
  | _, _ =>
      match as_number a, as_number b with
      | Some m, Some n => Ok (m <? n)
      | _, _ => Raise TypeError
      end
  end.

(** [a + b]. *)
Definition py_add (a b : data) : result data :=
  match a, b with
  | DStr s, DStr t => Ok (DStr (s ++ t))
  | DList xs, DList ys => Ok (DList (xs ++ ys))
  | DTuple xs, DTuple ys => Ok (DTuple (xs ++ ys))
  | _, _ =>
      match as_number a, as_number b with
      | Some m, Some n => Ok (DInt (m + n))
      | _, _ => Raise TypeError
      end
  end.

(** ** The builtins that the wrappers apply

    Each takes the positional and the keyword arguments of the call. *)

Definition no_keywords (kw : kwdict) : bool := bool_decide (kw = ∅).

(** *** [map(function, *iterables)] *)

Inductive zip_step : Type :=
  | ZStop
  | ZRaise (e : exn) (rest : list (list (result data)))
  | ZItems (xs : list data) (rest : list (list (result data))).

(** One [next()] on each iterator, in order: the first that is exhausted
    ends the map, the first that raises leaves the later ones where they are. *)
Fixpoint next_each (its : list (list (result data))) : zip_step :=
  match its with
  | [] => ZItems [] []
  | [] :: _ => ZStop
  | (Raise e :: it') :: its' => ZRaise e (it' :: its')
  | (Ok x :: it') :: its' =>
      match next_each its' with
      | ZStop => ZStop
      | ZRaise e rest => ZRaise e (it' :: rest)
      | ZItems xs rest => ZItems (x :: xs) (it' :: rest)
      end
  end.

Fixpoint map_items (f : value) (it : list (result data))
    (others : list (list (result data))) : list (result data) :=
  match it with
  | [] => []
  | Raise e :: it' => Raise e :: map_items f it' others
  | Ok x :: it' =>
      match next_each others with
      | ZStop => []
      | ZRaise e rest => Raise e :: map_items f it' rest
      | ZItems xs rest =>
          call_function f (VData <$> x :: xs) :: map_items f it' rest
      end
  end.

Definition py_map (pos : list value) (kw : kwdict) : result value :=
  if no_keywords kw then
    match pos with
    | f :: iterable :: iterables =>
        it ← iter iterable;
        others ← mapM iter iterables;
        Ok (VIter MapObject (map_items f it others))
    | _ => Raise TypeError
    end
  else Raise TypeError.

(** *** [filter(function, iterable)] *)

Fixpoint filter_items (f : value) (it : list (result data)) : list (result data) :=
  match it with
  | [] => []
  | Raise e :: it' => Raise e :: filter_items f it'
  | Ok x :: it' =>
      match f with
      | VData DNone =>
          if data_truthy x then Ok x :: filter_items f it' else filter_items f it'
      | _ =>
          match call_function f [VData x] with
          | Raise e => Raise e :: filter_items f it'
          | Ok keep =>
              if data_truthy keep then Ok x :: filter_items f it'
              else filter_items f it'
          end
      end
  end.

Definition py_filter (pos : list value) (kw : kwdict) : result value :=
  if no_keywords kw then
    match pos with
    | [f; iterable] =>
        it ← iter iterable;
        Ok (VIter FilterObject (filter_items f it))
    | _ => Raise TypeError
    end
  else Raise TypeError.

(** *** [functools.reduce(function, iterable[, initial])] *)

Fixpoint reduce_items (f : value) (acc : option value) (it : list (result data))
    : result value :=
  match it with
  | [] =>
      match acc with
      | Some v => Ok v
      | None => Raise TypeError
      end
  | Raise e :: _ => Raise e
  | Ok x :: it' =>
      match acc with
      | None => reduce_items f (Some (VData x)) it'
      | Some v =>
          r ← call_function f [v; VData x];
          reduce_items f (Some (VData r)) it'
      end
  end.

Definition py_reduce (pos : list value) (kw : kwdict) : result value :=
  if no_keywords kw then
    match pos with
    | [f; iterable] => it ← iter iterable; reduce_items f None it
    | [f; iterable; initial] => it ← iter iterable; reduce_items f (Some initial) it
    | _ => Raise TypeError
    end
  else Raise TypeError.

(** *** [sum(iterable, /, start=0)] *)

Definition value_add (acc : value) (x : data) : result value :=
  match acc with
  | VData a => VData <$> py_add a x
  | VFun _ | VIter _ _ => Raise TypeError
  end.

Fixpoint sum_items (acc : value) (it : list (result data)) : result value :=
  match it with
  | [] => Ok acc
  | Raise e :: _ => Raise e
  | Ok x :: it' => acc' ← value_add acc x; sum_items acc' it'
  end.

Definition is_str (v : value) : bool :=
  match v with
  | VData (DStr _) => true
  | _ => false
  end.

Definition py_sum (pos : list value) (kw : kwdict) : result value :=
  args ← match pos with
          | [iterable] =>
              if no_keywords (delete "start" kw)
              then Ok (iterable, default (pyint 0) (kw !! "start"))
              else Raise TypeError
          | [iterable; start] =>
              if no_keywords kw then Ok (iterable, start) else Raise TypeError
          | _ => Raise TypeError
          end;
  it ← iter args.1;
  if is_str args.2 then Raise TypeError else sum_items args.2 it.

(** *** [sorted(iterable, /, *, key=None, reverse=False)] *)

(** Insertion of [x] after the items whose key is smaller than or equal to
    its own; only [<] is used, as the builtin does. *)
Fixpoint insert_keyed (x : data * data) (l : list (data * data))
    : result (list (data * data)) :=
  match l with
  | [] => Ok [x]
  | y :: l' =>
      before ← py_lt y.1 x.1;
      if before : bool then cons y <$> insert_keyed x l' else Ok (x :: l)
  end.

(** A stable sort by key.  The builtin is a merge sort: on keys that are
    pairwise orderable both give the same list, and a pair that is not
    orderable raises [TypeError] where the sort meets it. *)
Fixpoint sort_keyed (l : list (data * data)) : result (list (data * data)) :=
  match l with
  | [] => Ok []
  | x :: l' => sorted ← sort_keyed l'; insert_keyed x sorted
  end.

(** [reverse] is read as an integer; [key=None] is no key. *)
Definition py_sorted (pos : list value) (kw : kwdict) : result value :=
  match pos with
  | [iterable] =>
      it ← iter iterable;
      xs ← consume it;
      if no_keywords (delete "key" (delete "reverse" kw)) then
        descending ← match kw !! "reverse" with
                   | None => Ok false
                   | Some (VData d) =>
                       match as_number d with
                       | Some n => Ok (negb (n =? 0))
                       | None => Raise TypeError
                       end
                   | Some _ => Raise TypeError
                   end;
        keyed ← match kw !! "key" with
                 | None | Some (VData DNone) => Ok ((λ x, (x, x)) <$> xs)
                 | Some f => mapM (λ x, k ← call_function f [VData x]; Ok (k, x)) xs
                 end;
        sorted ← (if descending : bool
                  then reverse <$> sort_keyed (reverse keyed)
                  else sort_keyed keyed);
        Ok (pylist (snd <$> sorted))
      else Raise TypeError
  | _ => Raise TypeError
  end.

(** *** [reversed(sequence)] *)

Definition py_reversed (pos : list value) (kw : kwdict) : result value :=
  if no_keywords kw then
    match pos with
    | [VData (DList l)] | [VData (DTuple l)] => Ok (VIter ReversedObject (Ok <$> reverse l))
    | [VData (DStr s)] => Ok (VIter ReversedObject (Ok <$> reverse (chars s)))
    | _ => Raise TypeError
    end
  else Raise TypeError.

Inductive builtin : Type :=
  | BMap
  | BFilter
  | BReduce
  | BSum
  | BSorted
  | BReversed.

Definition call_builtin (b : builtin) (pos : list value) (kw : kwdict) : result value :=
  match b with
  | BMap => py_map pos kw
  | BFilter => py_filter pos kw
  | BReduce => py_reduce pos kw
  | BSum => py_sum pos kw
  | BSorted => py_sorted pos kw
  | BReversed => py_reversed pos kw
  end.

(** ** Binding the arguments of a call to a method's parameters *)

(** A signature [def m(b1, .., p1, .., pn, *args, **kwargs)]: [bound] names the
    leading parameters that the call already fills ([self], and [function] in
    [PartialPipe(function, ...)]), [params] the ones filled from the call's
    arguments, and the flags tell whether [*args] and [**kwargs] are there. *)
Record signature : Type := Signature {
  bound : list string;
  params : list string;
  var_positional : bool;
  var_keyword : bool
}.

Record bound_args : Type := BoundArgs {
  named : list value;
  star_args : list value;
  star_kwargs : kwdict
}.

Fixpoint bind_params (ps : list string) (pos : list value) (kw : kwdict)
    : result bound_args :=
  match ps with
  | [] => Ok (BoundArgs [] pos kw)
  | name :: ps' =>
      match pos with
      | p :: pos' =>
          match kw !! name with
          | Some _ => Raise TypeError
          | None =>
              b ← bind_params ps' pos' kw;
              Ok (BoundArgs (p :: named b) (star_args b) (star_kwargs b))
          end
      | [] =>
          match kw !! name with
          | Some v =>
              b ← bind_params ps' [] (delete name kw);
              Ok (BoundArgs (v :: named b) (star_args b) (star_kwargs b))
          | None => Raise TypeError
          end
      end
  end.

(** A keyword that names a parameter already filled, a missing parameter, and
    an argument that no parameter takes are all a [TypeError]. *)
Definition bind_args (sig : signature) (pos : list value) (kw : kwdict)
    : result bound_args :=
  if forallb (λ name, bool_decide (kw !! name = None)) (bound sig) then
    b ← bind_params (params sig) pos kw;
    if (var_positional sig || bool_decide (star_args b = []))
       && (var_keyword sig || no_keywords (star_kwargs b))
    then Ok b else Raise TypeError
  else Raise TypeError.

(** A method reads and may assign the fields of [self]: it takes the object
    and returns its outcome with the object as the call leaves it. *)
Definition method (S A : Type) : Type := S → result A * S.

(** ** piped_map_filter_reduce.py *)

(** What can be called on positional and keyword arguments. *)
Definition callable : Type := list value → kwdict → result value.

Module PartialBase.

(** The three subclasses, one per transformation. *)
Inductive subclass : Type :=
  | PartialMap
  | PartialFilter
  | PartialReduce.

Record t : Type := mk {
  cls : subclass;
  function : value;
  args : list value;
  kwargs : kwdict
}.

Definition transformation (self : t) : builtin :=
  match cls self with
  | PartialMap => BMap
  | PartialFilter => BFilter
  | PartialReduce => BReduce
  end.

Definition __init__ (c : subclass) (function : value) (args : list value)
    (kwargs : kwdict) : t :=
  {| cls := c; function := function; args := args; kwargs := kwargs |}.

(** [PartialBase] leaves the property [transformation] abstract: its methods
    are those of every subclass.  They take as [transformation] what
    [self.transformation] returns, a callable on positional and keyword
    arguments; for the three subclasses of the file it is the builtin above. *)
Definition __call__ (transformation : callable) (iterable : value)
    (args : list value) (kwargs : kwdict) : method t value := λ self,
  let updated_kwargs := dict_merge (PartialBase.kwargs self) kwargs in
  (transformation
     (function self :: iterable :: PartialBase.args self ++ args)
     updated_kwargs,
   self).

(** Calling the object on the positional arguments [pos] and the keyword
    arguments [kw]. *)
Definition call (transformation : callable) (pos : list value) (kw : kwdict)
    : method t value := λ self,
  match bind_args (Signature ["self"] ["iterable"] true true) pos kw with
  | Ok (BoundArgs [iterable] args kwargs) =>
      __call__ transformation iterable args kwargs self
  | Ok _ => (Raise TypeError, self)
  | Raise e => (Raise e, self)
  end.

Definition __ror__ (transformation : callable) (iterable : value)
    : method t value :=
  call transformation [iterable] ∅.

End PartialBase.

(** ** piped_sorted_reversed_sum.py *)

Module PartialPipe.

(** [function] is the builtin that the wrapper stands for. *)
Record t : Type := mk {
  function : builtin;
  args : list value;
  kwargs : kwdict
}.

Definition __init__ (function : builtin) (args : list value) (kwargs : kwdict) : t :=
  {| function := function; args := args; kwargs := kwargs |}.

(** The construction [PartialPipe(function, *args, **kwargs)]. *)
Definition new (function : builtin) (args : list value) (kwargs : kwdict) : result t :=
  b ← bind_args (Signature ["self"; "function"] [] true true) args kwargs;
  Ok (__init__ function (star_args b) (star_kwargs b)).

Definition __call__ (iterable : value) : method t value := λ self,
  (call_builtin (function self) (iterable :: args self) (kwargs self), self).

(** Calling the object on the positional arguments [pos] and the keyword
    arguments [kw]. *)
Definition call (pos : list value) (kw : kwdict) : method t value := λ self,
  match bind_args (Signature ["self"] ["iterable"] false false) pos kw with
  | Ok (BoundArgs [iterable] _ _) => __call__ iterable self
  | Ok _ => (Raise TypeError, self)
  | Raise e => (Raise e, self)
  end.

Definition __ror__ (iterable : value) : method t value :=
  call [iterable] ∅.

End PartialPipe.

(** The instances of the subclasses of [FunctionPartialPipe]; they have no
    field. *)
Inductive wrapper : Type :=
  | ESum
  | ESorted
  | EReversed.

(** What a call of this repository returns or takes as callee: a value, or an
    instance of one of its classes. *)
Inductive object : Type :=
  | Value (v : value)
  | Partial (p : PartialBase.t)
  | Pipe (p : PartialPipe.t)
  | Wrapper (w : wrapper).

Definition emap (function : value) (iterable : value) : result object :=
  if truthy iterable then Value <$> py_map [function; iterable] ∅
  else Ok (Partial (PartialBase.__init__ PartialBase.PartialMap function [] ∅)).

Definition efilter (function : value) (iterable : value) : result object :=
  if truthy iterable then Value <$> py_filter [function; iterable] ∅
  else Ok (Partial (PartialBase.__init__ PartialBase.PartialFilter function [] ∅)).

Definition ereduce (function : value) (args : list value) : result object :=
  match args with
  | a :: _ =>
      if hasattr_iter a then Value <$> py_reduce (function :: args) ∅
      else Ok (Partial (PartialBase.__init__ PartialBase.PartialReduce function args ∅))
  | [] => Ok (Partial (PartialBase.__init__ PartialBase.PartialReduce function args ∅))
  end.

Module FunctionPartialPipe.

Definition function (self : wrapper) : builtin :=
  match self with
  | ESum => BSum
  | ESorted => BSorted
  | EReversed => BReversed
  end.

Definition __call__ (args : list value) (kwargs : kwdict) : method wrapper object :=
  λ self,
  let function := function self in
  (match args with
   | a :: _ =>
       if hasattr_iter a then Value <$> call_builtin function args kwargs
       else Pipe <$> PartialPipe.new function args kwargs
   | [] => Pipe <$> PartialPipe.new function args kwargs
   end,
   self).

(** Calling the object on the positional arguments [pos] and the keyword
    arguments [kw]. *)
Definition call (pos : list value) (kw : kwdict) : method wrapper object := λ self,
  match bind_args (Signature ["self"] [] true true) pos kw with
  | Ok b => __call__ (star_args b) (star_kwargs b) self
  | Raise e => (Raise e, self)
  end.

Definition __ror__ (iterable : value) : method wrapper value := λ self,
  let function := function self in
  (call_builtin function [iterable] ∅, self).

End FunctionPartialPipe.

Definition esum : wrapper := ESum.
Definition esorted : wrapper := ESorted.
Definition ereversed : wrapper := EReversed.

(** ** Call and pipe expressions *)

(** The call [callee(...)] with its positional and keyword arguments: the
    outcome, and the callee as the call leaves it. *)
Definition call (callee : object) (pos : list value) (kw : kwdict)
    : result object * object :=
  match callee with
  | Value (VFun _ as f) =>
      (if no_keywords kw then Value ∘ VData <$> call_function f pos
       else Raise TypeError,
       callee)
  | Value _ => (Raise TypeError, callee)
  | Partial p =>
      let '(r, p') :=
        PartialBase.call (call_builtin (PartialBase.transformation p)) pos kw p in
      (Value <$> r, Partial p')
  | Pipe p =>
      let '(r, p') := PartialPipe.call pos kw p in (Value <$> r, Pipe p')
  | Wrapper w =>
      let '(r, w') := FunctionPartialPipe.call pos kw w in (r, Wrapper w')
  end.

(** [a | b] between values: the integers' bitwise or, nothing else. *)
Definition py_or (a b : value) : result value :=
  match a, b with
  | VData (DBool x), VData (DBool y) => Ok (pybool (x || y))
  | VData x, VData y =>
      match as_number x, as_number y with
      | Some m, Some n => Ok (pyint (Z.lor m n))
      | _, _ => Raise TypeError
      end
  | _, _ => Raise TypeError
  end.

(** [lhs | rhs]: no value has an [__or__] that takes an instance of these
    classes, so Python calls the [__ror__] of the right operand. *)
Definition pipe (lhs : value) (rhs : object) : result object * object :=
  match rhs with
  | Value r => (Value <$> py_or lhs r, rhs)
  | Partial p =>
      let '(r, p') :=
        PartialBase.__ror__ (call_builtin (PartialBase.transformation p)) lhs p in
      (Value <$> r, Partial p')
  | Pipe p =>
      let '(r, p') := PartialPipe.__ror__ lhs p in (Value <$> r, Pipe p')
  | Wrapper w =>
      let '(r, w') := FunctionPartialPipe.__ror__ lhs w in (Value <$> r, Wrapper w')
  end.

(** [lambda a, b: a + b] and [lambda x: x * 2], [lambda x: x > 1]. *)
Definition add : value :=
  VFun (λ xs, match xs with [a; b] => py_add a b | _ => Raise TypeError end).
Definition double : value :=
  VFun (λ xs, match xs with [DInt n] => Ok (DInt (n * 2)) | _ => Raise TypeError end).
Definition greater_than_1 : value :=
  VFun (λ xs, match xs with [x] => DBool <$> py_lt (DInt 1) x | _ => Raise TypeError end).

(** ** Notions used in the statements *)

(** The test of [ereduce]: there is a first extra argument and it has
    [__iter__]. *)
Definition first_is_iterable (args : list value) : bool :=
  match args with
  | a :: _ => hasattr_iter a
  | [] => false
  end.

Definition is_deferred (r : result object) : bool :=
  match r with
  | Ok (Partial _) | Ok (Pipe _) => true
  | _ => false
  end.

(** An integer as an item with its key, under the default [key=None]. *)
Definition keyed_int (n : Z) : data * data := (DInt n, DInt n).

(** Insertion sort on integers, to say what [sorted] returns on them. *)
Fixpoint zinsert (x : Z) (l : list Z) : list Z :=
  match l with
  | [] => [x]
  | y :: l' => if y <? x then y :: zinsert x l' else x :: l
  end.

Fixpoint zsort (l : list Z) : list Z :=
  match l with
  | [] => []
  | x :: l' => zinsert x (zsort l')
  end.

(** [lhs | rhs] where both sides are expressions: the left one is evaluated
    first.  An instance of these classes on the left has no [__or__] and is
    not iterable, so whatever the right operand is, the pipe raises
    [TypeError]. *)
Definition piped (lhs rhs : result object) : result object :=
  o ← lhs;
  d ← rhs;
  match o with
  | Value v => (pipe v d).1
  | Partial _ | Pipe _ | Wrapper _ => Raise TypeError
  end.

(** User functions built from total functions on data: [lambda x: g(x)],
    a predicate [lambda x: p(x)] and [lambda a, b: op(a, b)]. *)
Definition unary (g : data → data) : value :=
  VFun (λ xs, match xs with [x] => Ok (g x) | _ => Raise TypeError end).
Definition predicate (p : data → bool) : value :=
  VFun (λ xs, match xs with [x] => Ok (DBool (p x)) | _ => Raise TypeError end).
Definition binary (op : data → data → data) : value :=
  VFun (λ xs, match xs with [a; b] => Ok (op a b) | _ => Raise TypeError end).

(** Transformations that give back one of the arguments they are called on:
    [lambda *args, **kwargs: kwargs[k]] and [lambda *args, **kwargs: args[i]]. *)
Definition keyword_probe (k : string) : callable := λ pos kw,
  match kw !! k with
  | Some v => Ok v
  | None => Raise (Exception "KeyError")
  end.
Definition positional_probe (i : nat) : callable := λ pos kw,
  match pos !! i with
  | Some v => Ok v
  | None => Raise (Exception "IndexError")
  end.

(** The sum of a list of integers. *)
Definition zsum (l : list Z) : Z := foldr Z.add 0 l.

(** * Properties *)

(** ** The builtins and the scenarios of the specification *)

Example sum_123 : py_sum [pylist (ints [1; 2; 3])] ∅ = Ok (pyint 6).
Proof. reflexivity. Qed.
Example sorted_desc :
  py_sorted [pylist (ints [2; 3; 1])] {["reverse" := pybool true]} = Ok (pylist (ints [3; 2; 1])).
Proof. reflexivity. Qed.
Example map_double :
  py_map [VFun (λ xs, match xs with [DInt n] => Ok (DInt (2 * n)) | _ => Raise TypeError end);
          pylist (ints [1; 2; 3])] ∅ = Ok (VIter MapObject (Ok <$> ints [2; 4; 6])).
Proof. reflexivity. Qed.
Example scenario_1 :
  (d ← ereduce add []; (call d [pylist (ints [1; 2; 3])] ∅).1) = Ok (Value (pyint 6)).
Proof. reflexivity. Qed.
Example scenario_2 :
  (d ← emap double PyNone; (pipe (pylist (ints [1; 2; 3])) d).1)
  = Ok (Value (VIter MapObject (Ok <$> ints [2; 4; 6]))).
Proof. reflexivity. Qed.
Example scenario_4 :
  efilter greater_than_1 (pylist (ints [1; 2; 3]))
  = Ok (Value (VIter FilterObject (Ok <$> ints [2; 3]))).
Proof. reflexivity. Qed.

(** ** Keyword dictionaries and argument binding *)

Lemma no_keywords_empty : no_keywords ∅ = true.
Proof. reflexivity. Qed.

Lemma no_keywords_spec (kw : kwdict) : no_keywords kw = true ↔ kw = ∅.
Proof. unfold no_keywords. apply bool_decide_eq_true. Qed.

Lemma dict_merge_lookup (d1 d2 : kwdict) (k : string) :
  dict_merge d1 d2 !! k = match d2 !! k with Some v => Some v | None => d1 !! k end.
Proof.
  unfold dict_merge. rewrite lookup_union.
  destruct (d2 !! k), (d1 !! k); reflexivity.
Qed.

Lemma dict_merge_empty_r (d : kwdict) : dict_merge d ∅ = d.
Proof. unfold dict_merge. apply (left_id_L ∅ (∪)). Qed.

Lemma dict_merge_empty_l (d : kwdict) : dict_merge ∅ d = d.
Proof. unfold dict_merge. apply (right_id_L ∅ (∪)). Qed.

(** ** Immediate or deferred: [emap], [efilter], [ereduce] *)

Lemma value_is_not_deferred (r : result value) : is_deferred (Value <$> r) = false.
Proof. destruct r; reflexivity. Qed.

Lemma emap_truthy (f s : value) :
  truthy s = true → emap f s = Value <$> py_map [f; s] ∅.
Proof. intros H. unfold emap. rewrite H. reflexivity. Qed.

(** C10: [emap] and [efilter] called with a falsy iterable, the empty list for
    one, return a deferred operation and do not apply the builtin: the
    dispatch tests the truth value of the argument. *)
Theorem falsy_iterable_is_deferred (f iterable : value) :
  truthy iterable = false →
  emap f iterable
    = Ok (Partial (PartialBase.mk PartialBase.PartialMap f [] ∅))
  ∧ efilter f iterable
    = Ok (Partial (PartialBase.mk PartialBase.PartialFilter f [] ∅)).
Proof.
  intros Hfalsy. unfold emap, efilter. rewrite Hfalsy. split; reflexivity.
Qed.

Lemma falsy_iterable_is_deferred_witness :
  truthy (pylist []) = false
  ∧ emap double (pylist [])
    = Ok (Partial (PartialBase.mk PartialBase.PartialMap double [] ∅))
  ∧ efilter double (pylist [])
    = Ok (Partial (PartialBase.mk PartialBase.PartialFilter double [] ∅)).
Proof.
  split; [reflexivity |].
  apply (falsy_iterable_is_deferred double (pylist [])). reflexivity.
Defined.

(** C1, at the empty list: [map(f, [])] is an empty map object, and
    [emap(f, [])] is a deferred operation instead. *)
Theorem emap_of_empty_list_is_not_map (f : value) :
  py_map [f; pylist []] ∅ = Ok (VIter MapObject [])
  ∧ emap f (pylist [])
    = Ok (Partial (PartialBase.mk PartialBase.PartialMap f [] ∅))
  ∧ emap f (pylist []) ≠ Value <$> py_map [f; pylist []] ∅.
Proof.
  split; [reflexivity |]. split; [reflexivity |]. discriminate.
Qed.

(** C2, at the empty list: the deferred application [emap(f)([])] is the
    empty map object, and the immediate [emap(f, [])] is a deferred
    operation. *)
Theorem emap_deferred_differs_on_empty_list (f : value) :
  (d ← emap f PyNone; (call d [pylist []] ∅).1) = Ok (Value (VIter MapObject []))
  ∧ emap f (pylist [])
    = Ok (Partial (PartialBase.mk PartialBase.PartialMap f [] ∅))
  ∧ (d ← emap f PyNone; (call d [pylist []] ∅).1) ≠ emap f (pylist []).
Proof.
  split; [reflexivity |]. split; [reflexivity |]. discriminate.
Qed.

(** C9: [ereduce] applies [reduce] at once exactly when it has a first extra
    positional argument and that one has [__iter__], and returns a deferred
    operation otherwise; [ereduce(lambda a, b: a + b, [], 0)] is applied at
    once and is [0]. *)
Theorem ereduce_dispatch (f : value) (args : list value) :
  ereduce f args
    = (if first_is_iterable args
       then Value <$> py_reduce (f :: args) ∅
       else Ok (Partial (PartialBase.mk PartialBase.PartialReduce f args ∅)))
  ∧ is_deferred (ereduce f args) = negb (first_is_iterable args)
  ∧ ereduce add [pylist []; pyint 0] = Ok (Value (pyint 0)).
Proof.
  split; [| split; [| reflexivity]].
  - destruct args as [|a args]; reflexivity.
  - destruct args as [|a args]; [reflexivity |].
    unfold ereduce, first_is_iterable.
    destruct (hasattr_iter a); [apply value_is_not_deferred | reflexivity].
Qed.

(** C4, as the code has it: for a non-iterable [x], [ereduce(f, x)] raises
    nothing and returns a deferred operation that keeps [x] as a positional
    argument; called on [s] it computes [reduce(f, s, x)], with [x] the
    initial value. *)
Theorem ereduce_non_iterable_is_deferred (f x : value) :
  hasattr_iter x = false →
  ereduce f [x]
    = Ok (Partial (PartialBase.mk PartialBase.PartialReduce f [x] ∅))
  ∧ ∀ s, (d ← ereduce f [x]; (call d [s] ∅).1) = Value <$> py_reduce [f; s; x] ∅.
Proof.
  intros Hx. unfold ereduce. rewrite Hx. split; [reflexivity |].
  intros s. reflexivity.
Qed.

Lemma ereduce_non_iterable_is_deferred_witness :
  hasattr_iter (pyint 10) = false
  ∧ ereduce add [pyint 10]
    = Ok (Partial (PartialBase.mk PartialBase.PartialReduce add [pyint 10] ∅))
  ∧ ∀ s, (d ← ereduce add [pyint 10]; (call d [s] ∅).1)
         = Value <$> py_reduce [add; s; pyint 10] ∅.
Proof.
  split; [reflexivity |].
  apply (ereduce_non_iterable_is_deferred add (pyint 10)). reflexivity.
Defined.

(** C4, as stated, fails: [ereduce(lambda a, b: a + b, 0)] raises nothing. *)
Lemma ereduce_non_iterable_does_not_raise :
  hasattr_iter (pyint 0) = false
  ∧ ereduce add [pyint 0]
    = Ok (Partial (PartialBase.mk PartialBase.PartialReduce add [pyint 0] ∅))
  ∧ ∀ e, ereduce add [pyint 0] ≠ Raise e.
Proof.
  split; [reflexivity |]. split; [reflexivity |]. intros e. discriminate.
Qed.

(** ** Applying a deferred operation *)

Lemma bind_iterable_and_rest (s : value) (B : list value) (K2 : kwdict) :
  K2 !! "self" = None → K2 !! "iterable" = None →
  bind_args (Signature ["self"] ["iterable"] true true) (s :: B) K2
  = Ok (BoundArgs [s] B K2).
Proof.
  intros Hself Hiterable. unfold bind_args. simpl.
  rewrite bool_decide_true by exact Hself. simpl.
  rewrite Hiterable. reflexivity.
Qed.

(** C5: a deferred operation of the map, filter, reduce family with stored
    positional arguments [A] and stored keyword arguments [K], called on [s]
    with the positional arguments [B] and the keyword arguments [K2], calls
    its transformation on the function, [s], [A] then [B], and on [K] merged
    with [K2], where a key of both takes its value from [K2].  It is stated
    for whatever the subclass gives as transformation, and read off
    transformations that give back the keyword [k] or the positional argument
    [i] they receive. *)
Theorem deferred_call_merges_arguments
    (transformation : callable) (self : PartialBase.t) (s : value)
    (B : list value) (K2 : kwdict) :
  K2 !! "self" = None → K2 !! "iterable" = None →
  PartialBase.call transformation (s :: B) K2 self
    = (transformation
         (PartialBase.function self :: s :: PartialBase.args self ++ B)
         (dict_merge (PartialBase.kwargs self) K2),
       self)
  ∧ call (Partial self) (s :: B) K2
    = (Value <$> call_builtin (PartialBase.transformation self)
         (PartialBase.function self :: s :: PartialBase.args self ++ B)
         (dict_merge (PartialBase.kwargs self) K2),
       Partial self)
  ∧ (∀ k v, K2 !! k = Some v →
       PartialBase.call (keyword_probe k) (s :: B) K2 self = (Ok v, self))
  ∧ (∀ k, K2 !! k = None →
       PartialBase.call (keyword_probe k) (s :: B) K2 self
       = (keyword_probe k [] (PartialBase.kwargs self), self))
  ∧ PartialBase.call (positional_probe 0) (s :: B) K2 self
    = (Ok (PartialBase.function self), self)
  ∧ PartialBase.call (positional_probe 1) (s :: B) K2 self = (Ok s, self)
  ∧ (∀ i v, PartialBase.args self !! i = Some v →
       PartialBase.call (positional_probe (2 + i)) (s :: B) K2 self = (Ok v, self))
  ∧ (∀ j v, B !! j = Some v →
       PartialBase.call
         (positional_probe (2 + length (PartialBase.args self) + j)) (s :: B) K2 self
       = (Ok v, self)).
Proof.
  intros Hself Hiterable.
  assert (Hcall : ∀ tr : callable,
    PartialBase.call tr (s :: B) K2 self
    = (tr (PartialBase.function self :: s :: PartialBase.args self ++ B)
         (dict_merge (PartialBase.kwargs self) K2),
       self)).
  { intros tr. unfold PartialBase.call.
    rewrite (bind_iterable_and_rest s B K2 Hself Hiterable). reflexivity. }
  split; [apply Hcall |]. split; [unfold call; rewrite Hcall; reflexivity |].
  split; [| split; [| split; [| split; [| split]]]].
  - intros k v Hk. rewrite Hcall. unfold keyword_probe.
    rewrite dict_merge_lookup, Hk. reflexivity.
  - intros k Hk. rewrite Hcall. unfold keyword_probe.
    rewrite dict_merge_lookup, Hk. reflexivity.
  - rewrite Hcall. reflexivity.
  - rewrite Hcall. reflexivity.
  - intros i v Hi. rewrite Hcall. unfold positional_probe. simpl.
    rewrite (lookup_app_l_Some _ _ _ _ Hi). reflexivity.
  - intros j v Hj. rewrite Hcall. unfold positional_probe. simpl.
    rewrite lookup_app_r by lia.
    replace (length (PartialBase.args self) + j - length (PartialBase.args self))%nat
      with j by lia.
    rewrite Hj. reflexivity.
Qed.

Lemma deferred_call_merges_arguments_witness :
  let self := PartialBase.mk PartialBase.PartialMap double [pyint 10]
                (<["kept" := pyint 7]> {["strict" := pybool false]}) in
  let s := pylist (ints [1; 2]) in
  let K2 : kwdict := {["strict" := pybool true]} in
  K2 !! "self" = None ∧ K2 !! "iterable" = None
  ∧ PartialBase.call (keyword_probe "strict") [s; pyint 3] K2 self
    = (Ok (pybool true), self)
  ∧ PartialBase.call (keyword_probe "kept") [s; pyint 3] K2 self
    = (Ok (pyint 7), self)
  ∧ PartialBase.call (positional_probe 2) [s; pyint 3] K2 self
    = (Ok (pyint 10), self)
  ∧ PartialBase.call (positional_probe 3) [s; pyint 3] K2 self
    = (Ok (pyint 3), self).
Proof.
  intros self s K2.
  split; [reflexivity |]. split; [reflexivity |].
  destruct (deferred_call_merges_arguments (keyword_probe "strict") self s
              [pyint 3] K2)
    as (_ & _ & Hnew & Hstored & _ & _ & Hfirst & Hthen);
    [reflexivity | reflexivity |].
  split; [apply (Hnew "strict" (pybool true)); reflexivity |].
  split; [apply (Hstored "kept"); reflexivity |].
  split; [apply (Hfirst 0%nat (pyint 10)); reflexivity |].
  apply (Hthen 0%nat (pyint 3)). reflexivity.
Defined.

Lemma PartialBase_ror_builtin (p : PartialBase.t) (s : value) :
  PartialBase.__ror__ (call_builtin (PartialBase.transformation p)) s p
  = (call_builtin (PartialBase.transformation p)
       (PartialBase.function p :: s :: PartialBase.args p) (PartialBase.kwargs p),
     p).
Proof.
  unfold PartialBase.__ror__, PartialBase.call.
  rewrite bind_iterable_and_rest by reflexivity.
  unfold PartialBase.__call__.
  rewrite dict_merge_empty_r, app_nil_r. reflexivity.
Qed.

(** C6: piping [s] into a deferred operation [d] is calling [d] on [s] alone:
    [s | d] and [d(s)] have the same outcome, the builtin applied to [s] and
    to what [d] stores. *)
Theorem pipe_into_deferred_is_call (s : value) :
  (∀ p, pipe s (Partial p) = call (Partial p) [s] ∅)
  ∧ (∀ p, pipe s (Pipe p) = call (Pipe p) [s] ∅)
  ∧ (∀ p, pipe s (Partial p)
          = (Value <$> call_builtin (PartialBase.transformation p)
               (PartialBase.function p :: s :: PartialBase.args p)
               (PartialBase.kwargs p),
             Partial p))
  ∧ (∀ p, pipe s (Pipe p)
          = (Value <$> call_builtin (PartialPipe.function p)
               (s :: PartialPipe.args p) (PartialPipe.kwargs p),
             Pipe p))
  ∧ (∀ f, (d ← emap f PyNone; (pipe s d).1) = (d ← emap f PyNone; (call d [s] ∅).1)).
Proof.
  split; [reflexivity |]. split; [reflexivity |].
  split; [| split; [reflexivity | reflexivity]].
  intros p. unfold pipe. rewrite PartialBase_ror_builtin. reflexivity.
Qed.

Lemma call_leaves_callee (d : object) (pos : list value) (kw : kwdict) :
  (call d pos kw).2 = d.
Proof.
  destruct d as [v|p|p|w]; simpl.
  - destruct v; reflexivity.
  - unfold PartialBase.call.
    destruct (bind_args _ pos kw) as [[[|? [|? ?]] ? ?]|]; reflexivity.
  - unfold PartialPipe.call.
    destruct (bind_args _ pos kw) as [[[|? [|? ?]] ? ?]|]; reflexivity.
  - unfold FunctionPartialPipe.call.
    destruct (bind_args _ pos kw); reflexivity.
Qed.

Lemma pipe_leaves_operand (s : value) (d : object) : (pipe s d).2 = d.
Proof.
  destruct d as [v|p|p|w]; [reflexivity | | | reflexivity].
  - exact (call_leaves_callee (Partial p) [s] ∅).
  - exact (call_leaves_callee (Pipe p) [s] ∅).
Qed.

(** C7: a call or a pipe leaves the deferred operation as it was, with its
    stored function, positional and keyword arguments; so the object that
    [efilter(f)] returns, applied to [s1] and then to [s2], filters each as
    [filter] does and is still the same object. *)
Theorem application_leaves_deferred_unchanged :
  (∀ d pos kw, (call d pos kw).2 = d)
  ∧ (∀ s d, (pipe s d).2 = d)
  ∧ (∀ f s1 s2,
       let d := Partial (PartialBase.mk PartialBase.PartialFilter f [] ∅) in
       efilter f PyNone = Ok d
       ∧ (call d [s1] ∅).1 = Value <$> py_filter [f; s1] ∅
       ∧ (pipe s2 (call d [s1] ∅).2).1 = Value <$> py_filter [f; s2] ∅
       ∧ (call (call d [s1] ∅).2 [s2] ∅).1 = Value <$> py_filter [f; s2] ∅
       ∧ (call (call d [s1] ∅).2 [s2] ∅).2 = d).
Proof.
  split; [exact call_leaves_callee |]. split; [exact pipe_leaves_operand |].
  intros f s1 s2 d. repeat split.
Qed.

(** ** The wrappers of [sum], [sorted] and [reversed] *)

(** C8: piping an iterable into a wrapper instance applies its builtin to
    that iterable and to nothing else; [[1,2,3] | esum] is [6], and so is
    [esum()([1,2,3])]. *)
Theorem pipe_into_wrapper (w : wrapper) (s : value) :
  pipe s (Wrapper w)
    = (Value <$> call_builtin (FunctionPartialPipe.function w) [s] ∅, Wrapper w)
  ∧ (pipe (pylist (ints [1; 2; 3])) (Wrapper esum)).1 = Ok (Value (pyint 6))
  ∧ (d ← (call (Wrapper esum) [] ∅).1; (call d [pylist (ints [1; 2; 3])] ∅).1)
    = Ok (Value (pyint 6)).
Proof. repeat split. Qed.

(** *** [sorted] on integers *)

Lemma consume_items (l : list data) : consume (Ok <$> l) = Ok l.
Proof.
  induction l as [|x l IH]; [reflexivity |].
  csimpl. rewrite IH. reflexivity.
Qed.

Lemma insert_keyed_int (x : Z) (l : list Z) :
  insert_keyed (keyed_int x) (keyed_int <$> l) = Ok (keyed_int <$> zinsert x l).
Proof.
  induction l as [|y l IH]; [reflexivity |].
  csimpl. destruct (y <? x); csimpl; [| reflexivity].
  rewrite IH. reflexivity.
Qed.

Lemma sort_keyed_int (l : list Z) :
  sort_keyed (keyed_int <$> l) = Ok (keyed_int <$> zsort l).
Proof.
  induction l as [|x l IH]; [reflexivity |].
  csimpl. rewrite IH. csimpl. apply insert_keyed_int.
Qed.

Lemma zinsert_perm (x : Z) (l : list Z) : Permutation (x :: l) (zinsert x l).
Proof.
  induction l as [|y l IH]; [reflexivity |].
  simpl. destruct (y <? x); [| reflexivity].
  rewrite <- IH. apply perm_swap.
Qed.

Lemma zsort_perm (l : list Z) : Permutation l (zsort l).
Proof.
  induction l as [|x l IH]; [reflexivity |].
  simpl. rewrite <- zinsert_perm. constructor. exact IH.
Qed.

Lemma zinsert_sorted (x : Z) (l : list Z) :
  Sorted Z.le l → Sorted Z.le (zinsert x l).
Proof.
  induction 1 as [|y l Hsorted IH Hhd]; simpl.
  - repeat constructor.
  - destruct (Z.ltb_spec y x) as [Hlt|Hge].
    + constructor; [exact IH |].
      destruct Hhd as [|z l Hyz]; simpl.
      * constructor. lia.
      * destruct (z <? x); constructor; lia.
    + constructor; [constructor; assumption |]. constructor. lia.
Qed.

Lemma zsort_sorted (l : list Z) : Sorted Z.le (zsort l).
Proof.
  induction l as [|x l IH]; [constructor |].
  simpl. apply zinsert_sorted, IH.
Qed.

Lemma py_sorted_ascending_ints (zs : list Z) :
  py_sorted [pylist (ints zs)] {["reverse" := pybool false]}
  = Ok (pylist (ints (zsort zs))).
Proof.
  unfold py_sorted, pylist. simpl iter. simpl mbind at 1.
  rewrite consume_items. simpl mbind at 1.
  change (no_keywords (delete "key" (delete "reverse" {["reverse" := pybool false]})))
    with true.
  change (({["reverse" := pybool false]} : kwdict) !! "reverse") with (Some (pybool false)).
  change (({["reverse" := pybool false]} : kwdict) !! "key") with (@None value).
  simpl. unfold ints. rewrite <- list_fmap_compose.
  change ((λ x, (x, x)) ∘ DInt) with keyed_int.
  rewrite sort_keyed_int. simpl.
  rewrite <- list_fmap_compose. reflexivity.
Qed.

Lemma PartialPipe_call_builtin (p : PartialPipe.t) (s : value) :
  PartialPipe.call [s] ∅ p
  = (call_builtin (PartialPipe.function p) (s :: PartialPipe.args p)
       (PartialPipe.kwargs p),
     p).
Proof. reflexivity. Qed.

(** C3, as the code has it: the deferred operation that
    [esorted(reverse=False)] returns takes the iterable and nothing else, so
    called on a sequence with [reverse] given at call time it raises
    [TypeError]; called on the sequence alone, it sorts with the stored
    [reverse=False], in ascending order. *)
Theorem esorted_deferred_takes_the_iterable_only :
  let d := PartialPipe.mk BSorted [] {["reverse" := pybool false]} in
  (call (Wrapper esorted) [] {["reverse" := pybool false]}).1 = Ok (Pipe d)
  ∧ (∀ s v, call (Pipe d) [s] {["reverse" := v]} = (Raise TypeError, Pipe d))
  ∧ (∀ s, call (Pipe d) [s] ∅
          = (Value <$> py_sorted [s] {["reverse" := pybool false]}, Pipe d))
  ∧ (∀ zs, ∃ out,
       (call (Pipe d) [pylist (ints zs)] ∅).1 = Ok (Value (pylist (ints out)))
       ∧ Sorted Z.le out ∧ Permutation zs out).
Proof.
  intros d. split; [reflexivity |]. split; [| split].
  - intros s v. reflexivity.
  - intros s. reflexivity.
  - intros zs. exists (zsort zs).
    split; [| split; [apply zsort_sorted | apply zsort_perm]].
    unfold call. rewrite PartialPipe_call_builtin.
    unfold d, call_builtin, PartialPipe.function, PartialPipe.args,
      PartialPipe.kwargs, fst.
    rewrite py_sorted_ascending_ints. reflexivity.
Qed.

(** C3, as stated, fails: [esorted(reverse=False)] called on [[1, 3, 2]] with
    [reverse=True] raises [TypeError] and returns no list. *)
Lemma esorted_call_time_reverse_raises :
  (d ← (call (Wrapper esorted) [] {["reverse" := pybool false]}).1;
   (call d [pylist (ints [1; 3; 2])] {["reverse" := pybool true]}).1)
  = Raise TypeError
  ∧ (d ← (call (Wrapper esorted) [] {["reverse" := pybool false]}).1;
     (call d [pylist (ints [1; 3; 2])] {["reverse" := pybool true]}).1)
    ≠ Ok (Value (pylist (ints [3; 2; 1]))).
Proof.
  assert (Hraises :
    (d ← (call (Wrapper esorted) [] {["reverse" := pybool false]}).1;
     (call d [pylist (ints [1; 3; 2])] {["reverse" := pybool true]}).1)
    = Raise TypeError) by reflexivity.
  split; [exact Hraises |]. rewrite Hraises. discriminate.
Qed.

(** * Further properties of the code *)

(** ** A deferred operation called with no keyword *)

Lemma PartialBase_call_builtin (p : PartialBase.t) (s : value) (B : list value) :
  PartialBase.call (call_builtin (PartialBase.transformation p)) (s :: B) ∅ p
  = (call_builtin (PartialBase.transformation p)
       (PartialBase.function p :: s :: PartialBase.args p ++ B)
       (PartialBase.kwargs p),
     p).
Proof.
  unfold PartialBase.call.
  rewrite bind_iterable_and_rest by reflexivity.
  unfold PartialBase.__call__. rewrite dict_merge_empty_r. reflexivity.
Qed.

(** ** Immediate, deferred and piped application *)

(** X1: on a truthy iterable (a non-empty sequence, any lazy iterator),
    [emap(f, s)], [emap(f)(s)] and [s | emap(f)] are the same: [map(f, s)]. *)
Theorem emap_immediate_deferred_piped (f s : value) :
  truthy s = true →
  emap f s = Value <$> py_map [f; s] ∅
  ∧ (d ← emap f PyNone; (call d [s] ∅).1) = emap f s
  ∧ (d ← emap f PyNone; (pipe s d).1) = emap f s.
Proof.
  intros Hs. rewrite (emap_truthy f s Hs). repeat split.
Qed.

Lemma emap_immediate_deferred_piped_witness :
  truthy (pylist (ints [1; 2; 3])) = true
  ∧ emap double (pylist (ints [1; 2; 3]))
    = Value <$> py_map [double; pylist (ints [1; 2; 3])] ∅
  ∧ (d ← emap double PyNone; (call d [pylist (ints [1; 2; 3])] ∅).1)
    = emap double (pylist (ints [1; 2; 3]))
  ∧ (d ← emap double PyNone; (pipe (pylist (ints [1; 2; 3])) d).1)
    = emap double (pylist (ints [1; 2; 3])).
Proof.
  split; [reflexivity |].
  apply (emap_immediate_deferred_piped double (pylist (ints [1; 2; 3]))).
  reflexivity.
Defined.

(** X2: on a truthy iterable, [efilter(f, s)], [efilter(f)(s)] and
    [s | efilter(f)] are the same: [filter(f, s)]. *)
Theorem efilter_immediate_deferred_piped (f s : value) :
  truthy s = true →
  efilter f s = Value <$> py_filter [f; s] ∅
  ∧ (d ← efilter f PyNone; (call d [s] ∅).1) = efilter f s
  ∧ (d ← efilter f PyNone; (pipe s d).1) = efilter f s.
Proof.
  intros Hs.
  assert (Himmediate : efilter f s = Value <$> py_filter [f; s] ∅)
    by (unfold efilter; rewrite Hs; reflexivity).
  rewrite Himmediate. repeat split.
Qed.

Lemma efilter_immediate_deferred_piped_witness :
  truthy (pylist (ints [1; 2; 3])) = true
  ∧ efilter greater_than_1 (pylist (ints [1; 2; 3]))
    = Value <$> py_filter [greater_than_1; pylist (ints [1; 2; 3])] ∅
  ∧ (d ← efilter greater_than_1 PyNone; (call d [pylist (ints [1; 2; 3])] ∅).1)
    = efilter greater_than_1 (pylist (ints [1; 2; 3]))
  ∧ (d ← efilter greater_than_1 PyNone; (pipe (pylist (ints [1; 2; 3])) d).1)
    = efilter greater_than_1 (pylist (ints [1; 2; 3])).
Proof.
  split; [reflexivity |].
  apply (efilter_immediate_deferred_piped greater_than_1 (pylist (ints [1; 2; 3]))).
  reflexivity.
Defined.

(** X3: for every iterable [s], the empty ones too, [ereduce(f, s)],
    [ereduce(f)(s)] and [s | ereduce(f)] are the same, [reduce(f, s)]; and an
    initial value given with [s], at once or at call time, gives
    [reduce(f, s, initial)]. *)
Theorem ereduce_immediate_deferred_piped (f s : value) :
  hasattr_iter s = true →
  ereduce f [s] = Value <$> py_reduce [f; s] ∅
  ∧ (d ← ereduce f []; (call d [s] ∅).1) = ereduce f [s]
  ∧ (d ← ereduce f []; (pipe s d).1) = ereduce f [s]
  ∧ (∀ initial, ereduce f [s; initial] = Value <$> py_reduce [f; s; initial] ∅)
  ∧ (∀ initial,
       (d ← ereduce f []; (call d [s; initial] ∅).1) = ereduce f [s; initial]).
Proof.
  intros Hs.
  assert (Himmediate : ∀ rest, ereduce f (s :: rest) = Value <$> py_reduce (f :: s :: rest) ∅)
    by (intros rest; unfold ereduce; rewrite Hs; reflexivity).
  rewrite !Himmediate. repeat split.
  all: intros initial; rewrite ?Himmediate; reflexivity.
Qed.

Lemma ereduce_immediate_deferred_piped_witness :
  hasattr_iter (pylist []) = true
  ∧ ereduce add [pylist []] = Value <$> py_reduce [add; pylist []] ∅
  ∧ (d ← ereduce add []; (call d [pylist []] ∅).1) = ereduce add [pylist []]
  ∧ (d ← ereduce add []; (pipe (pylist []) d).1) = ereduce add [pylist []]
  ∧ (∀ initial,
       ereduce add [pylist []; initial]
       = Value <$> py_reduce [add; pylist []; initial] ∅)
  ∧ (∀ initial,
       (d ← ereduce add []; (call d [pylist []; initial] ∅).1)
       = ereduce add [pylist []; initial]).
Proof.
  split; [reflexivity |].
  apply (ereduce_immediate_deferred_piped add (pylist [])). reflexivity.
Defined.

(** X4: an initial value that is not iterable can be given first:
    [ereduce(f, initial)(s)] and [s | ereduce(f, initial)] are
    [ereduce(f, s, initial)], that is [reduce(f, s, initial)]. *)
Theorem ereduce_stored_initial (f s initial : value) :
  hasattr_iter s = true → hasattr_iter initial = false →
  (d ← ereduce f [initial]; (call d [s] ∅).1) = ereduce f [s; initial]
  ∧ (d ← ereduce f [initial]; (pipe s d).1) = ereduce f [s; initial]
  ∧ ereduce f [s; initial] = Value <$> py_reduce [f; s; initial] ∅.
Proof.
  intros Hs Hinitial.
  assert (Himmediate : ereduce f [s; initial] = Value <$> py_reduce [f; s; initial] ∅)
    by (unfold ereduce; rewrite Hs; reflexivity).
  rewrite Himmediate. unfold ereduce. rewrite Hinitial. repeat split.
Qed.

Lemma ereduce_stored_initial_witness :
  hasattr_iter (pylist (ints [1; 2; 3])) = true ∧ hasattr_iter (pyint 10) = false
  ∧ (d ← ereduce add [pyint 10]; (call d [pylist (ints [1; 2; 3])] ∅).1)
    = ereduce add [pylist (ints [1; 2; 3]); pyint 10]
  ∧ (d ← ereduce add [pyint 10]; (pipe (pylist (ints [1; 2; 3])) d).1)
    = ereduce add [pylist (ints [1; 2; 3]); pyint 10]
  ∧ ereduce add [pylist (ints [1; 2; 3]); pyint 10]
    = Value <$> py_reduce [add; pylist (ints [1; 2; 3]); pyint 10] ∅.
Proof.
  split; [reflexivity |]. split; [reflexivity |].
  apply (ereduce_stored_initial add (pylist (ints [1; 2; 3])) (pyint 10));
    reflexivity.
Defined.

(** ** What the builtin cannot iterate *)

Lemma builtin_on_non_iterable (b : builtin) (x : value) (rest : list value)
    (kw : kwdict) :
  iter x = Raise TypeError →
  match b with
  | BMap | BFilter | BReduce => ∀ f, call_builtin b (f :: x :: rest) kw = Raise TypeError
  | BSum | BSorted => call_builtin b (x :: rest) kw = Raise TypeError
  | BReversed => True
  end.
Proof.
  intros Hiter. destruct b; simpl; try intros f.
  - unfold py_map. destruct (no_keywords kw); [| reflexivity].
    rewrite Hiter. reflexivity.
  - unfold py_filter. destruct (no_keywords kw); [| reflexivity].
    destruct rest; [| reflexivity]. rewrite Hiter. reflexivity.
  - unfold py_reduce. destruct (no_keywords kw); [| reflexivity].
    destruct rest as [|initial [|? ?]]; [| | reflexivity];
      rewrite Hiter; reflexivity.
  - unfold py_sum. destruct rest as [|start [|? ?]]; [| | reflexivity].
    + destruct (no_keywords (delete "start" kw)); [| reflexivity].
      csimpl. rewrite Hiter. reflexivity.
    + destruct (no_keywords kw); [| reflexivity].
      csimpl. rewrite Hiter. reflexivity.
  - unfold py_sorted. destruct rest; [| reflexivity].
    rewrite Hiter. reflexivity.
  - exact I.
Qed.

(** X5: the classes make no check of their own before they apply a builtin
    that iterates: a value on which [iter] raises [TypeError], piped into a
    deferred operation of the map, filter, reduce family, into one that [esum]
    or [esorted] made, or into [esum] or [esorted], raises [TypeError],
    whatever the operation stores, and leaves the operation as it was. *)
Theorem pipe_of_non_iterable_raises (x : value) :
  iter x = Raise TypeError →
  (∀ p, pipe x (Partial p) = (Raise TypeError, Partial p))
  ∧ (∀ args kwargs,
       let p := PartialPipe.mk BSum args kwargs in
       pipe x (Pipe p) = (Raise TypeError, Pipe p))
  ∧ (∀ args kwargs,
       let p := PartialPipe.mk BSorted args kwargs in
       pipe x (Pipe p) = (Raise TypeError, Pipe p))
  ∧ pipe x (Wrapper esum) = (Raise TypeError, Wrapper esum)
  ∧ pipe x (Wrapper esorted) = (Raise TypeError, Wrapper esorted).
Proof.
  intros Hiter. split; [| split; [| split; [| split]]].
  - intros p. unfold pipe. rewrite PartialBase_ror_builtin.
    pose proof (builtin_on_non_iterable (PartialBase.transformation p) x
                  (PartialBase.args p) (PartialBase.kwargs p) Hiter) as H.
    unfold PartialBase.transformation in *.
    destruct (PartialBase.cls p); rewrite H; reflexivity.
  - intros args kwargs p. unfold pipe, PartialPipe.__ror__.
    rewrite PartialPipe_call_builtin. unfold p.
    unfold PartialPipe.function, PartialPipe.args, PartialPipe.kwargs.
    rewrite (builtin_on_non_iterable BSum x args kwargs Hiter). reflexivity.
  - intros args kwargs p. unfold pipe, PartialPipe.__ror__.
    rewrite PartialPipe_call_builtin. unfold p.
    unfold PartialPipe.function, PartialPipe.args, PartialPipe.kwargs.
    rewrite (builtin_on_non_iterable BSorted x args kwargs Hiter). reflexivity.
  - unfold pipe, FunctionPartialPipe.__ror__, esum, FunctionPartialPipe.function.
    rewrite (builtin_on_non_iterable BSum x [] ∅ Hiter). reflexivity.
  - unfold pipe, FunctionPartialPipe.__ror__, esorted, FunctionPartialPipe.function.
    rewrite (builtin_on_non_iterable BSorted x [] ∅ Hiter). reflexivity.
Qed.

Lemma pipe_of_non_iterable_raises_witness :
  iter (pyint 5) = Raise TypeError
  ∧ (∀ p, pipe (pyint 5) (Partial p) = (Raise TypeError, Partial p))
  ∧ (∀ args kwargs,
       let p := PartialPipe.mk BSum args kwargs in
       pipe (pyint 5) (Pipe p) = (Raise TypeError, Pipe p))
  ∧ (∀ args kwargs,
       let p := PartialPipe.mk BSorted args kwargs in
       pipe (pyint 5) (Pipe p) = (Raise TypeError, Pipe p))
  ∧ pipe (pyint 5) (Wrapper esum) = (Raise TypeError, Wrapper esum)
  ∧ pipe (pyint 5) (Wrapper esorted) = (Raise TypeError, Wrapper esorted).
Proof.
  split; [reflexivity |].
  apply (pipe_of_non_iterable_raises (pyint 5)). reflexivity.
Defined.

(** ** Calling the wrappers of [sum], [sorted] and [reversed] *)

Lemma bind_star_only (names : list string) (pos : list value) (kw : kwdict) :
  Forall (λ name, kw !! name = None) names →
  bind_args (Signature names [] true true) pos kw = Ok (BoundArgs [] pos kw).
Proof.
  intros Hfree. unfold bind_args. simpl.
  replace (forallb (λ name, bool_decide (kw !! name = None)) names) with true;
    [reflexivity |].
  symmetry. induction Hfree as [|name names Hname _ IH]; [reflexivity |].
  simpl. rewrite IH, bool_decide_true by exact Hname. reflexivity.
Qed.

Lemma bind_collision (sig : signature) (pos : list value) (kw : kwdict) :
  Exists (λ name, is_Some (kw !! name)) (bound sig) →
  bind_args sig pos kw = Raise TypeError.
Proof.
  intros Hclash. unfold bind_args.
  replace (forallb (λ name, bool_decide (kw !! name = None)) (bound sig))
    with false; [reflexivity |].
  symmetry. induction Hclash as [name names [v Hv]|name names _ IH]; simpl.
  - rewrite bool_decide_false; [reflexivity |]. rewrite Hv. discriminate.
  - rewrite IH. apply andb_false_r.
Qed.

(** X6: a wrapper called with an iterable first applies its builtin at once
    to all the positional and keyword arguments of the call; called on the
    iterable alone it does what the pipe does. *)
Theorem wrapper_call_on_iterable
    (w : wrapper) (s : value) (rest : list value) (kw : kwdict) :
  hasattr_iter s = true → kw !! "self" = None →
  call (Wrapper w) (s :: rest) kw
    = (Value <$> call_builtin (FunctionPartialPipe.function w) (s :: rest) kw,
       Wrapper w)
  ∧ call (Wrapper w) [s] ∅ = pipe s (Wrapper w).
Proof.
  intros Hs Hself. split.
  - unfold call, FunctionPartialPipe.call.
    rewrite bind_star_only by (repeat constructor; exact Hself).
    unfold FunctionPartialPipe.__call__. simpl. rewrite Hs. reflexivity.
  - unfold call, FunctionPartialPipe.call.
    rewrite bind_star_only by (repeat constructor).
    unfold FunctionPartialPipe.__call__. simpl. rewrite Hs. reflexivity.
Qed.

Lemma wrapper_call_on_iterable_witness :
  let s := pylist (ints [2; 3; 1]) in
  let kw : kwdict := {["reverse" := pybool true]} in
  hasattr_iter s = true ∧ kw !! "self" = None
  ∧ call (Wrapper esorted) [s] kw
    = (Value <$> call_builtin BSorted [s] kw, Wrapper esorted)
  ∧ call (Wrapper esorted) [s] ∅ = pipe s (Wrapper esorted).
Proof.
  intros s kw. split; [reflexivity |]. split; [reflexivity |].
  apply (wrapper_call_on_iterable esorted s [] kw); reflexivity.
Defined.

(** X7: a wrapper called with no argument, or with a first argument that is
    not iterable, returns a deferred operation that keeps the arguments of the
    call, and applying it to [s] calls the builtin on [s], then the stored
    positional arguments, with the stored keywords: [esum(10)(s)] is
    [sum(s, 10)]. *)
Theorem wrapper_deferred_keeps_arguments
    (w : wrapper) (pos : list value) (kw : kwdict) :
  first_is_iterable pos = false →
  kw !! "self" = None → kw !! "function" = None →
  let d := Pipe (PartialPipe.mk (FunctionPartialPipe.function w) pos kw) in
  call (Wrapper w) pos kw = (Ok d, Wrapper w)
  ∧ (∀ s, call d [s] ∅
          = (Value <$> call_builtin (FunctionPartialPipe.function w) (s :: pos) kw, d))
  ∧ (∀ s, pipe s d = call d [s] ∅).
Proof.
  intros Hpos Hself Hfunction d.
  split; [| split; [intros s; reflexivity | intros s; reflexivity]].
  unfold call, FunctionPartialPipe.call.
  rewrite bind_star_only by (repeat constructor; exact Hself).
  unfold FunctionPartialPipe.__call__, PartialPipe.new. simpl.
  rewrite bind_star_only by (repeat constructor; assumption).
  destruct pos as [|a pos]; [reflexivity |].
  simpl in Hpos. rewrite Hpos. reflexivity.
Qed.

Lemma wrapper_deferred_keeps_arguments_witness :
  let d := Pipe (PartialPipe.mk BSum [pyint 10] ∅) in
  first_is_iterable [pyint 10] = false
  ∧ (∅ : kwdict) !! "self" = None ∧ (∅ : kwdict) !! "function" = None
  ∧ call (Wrapper esum) [pyint 10] ∅ = (Ok d, Wrapper esum)
  ∧ (∀ s, call d [s] ∅ = (Value <$> call_builtin BSum [s; pyint 10] ∅, d))
  ∧ (∀ s, pipe s d = call d [s] ∅).
Proof.
  intros d. split; [reflexivity |]. split; [reflexivity |]. split; [reflexivity |].
  apply (wrapper_deferred_keeps_arguments esum [pyint 10] ∅); reflexivity.
Defined.

(** X8: in a call that defers, a keyword named [self] or [function] collides
    with a parameter of the call or of [PartialPipe.__init__]: the wrapper
    raises [TypeError] and returns no deferred operation. *)
Theorem wrapper_deferred_keyword_collision
    (w : wrapper) (pos : list value) (kw : kwdict) :
  first_is_iterable pos = false →
  is_Some (kw !! "self") ∨ is_Some (kw !! "function") →
  call (Wrapper w) pos kw = (Raise TypeError, Wrapper w).
Proof.
  intros Hpos Hclash. unfold call, FunctionPartialPipe.call.
  destruct (kw !! "self") as [v|] eqn:Hself.
  - rewrite bind_collision; [reflexivity |].
    constructor. rewrite Hself. eauto.
  - rewrite bind_star_only by (repeat constructor; exact Hself).
    destruct Hclash as [[? ?]|Hfunction]; [discriminate |].
    unfold FunctionPartialPipe.__call__, PartialPipe.new. simpl.
    rewrite bind_collision by (simpl; apply Exists_cons_tl, Exists_cons_hd, Hfunction).
    destruct pos as [|a pos]; [reflexivity |].
    simpl in Hpos. rewrite Hpos. reflexivity.
Qed.

Lemma wrapper_deferred_keyword_collision_witness :
  let kw : kwdict := {["function" := PyNone]} in
  first_is_iterable [] = false
  ∧ (is_Some (kw !! "self") ∨ is_Some (kw !! "function"))
  ∧ call (Wrapper esorted) [] kw = (Raise TypeError, Wrapper esorted).
Proof.
  intros kw.
  assert (Hclash : is_Some (kw !! "self") ∨ is_Some (kw !! "function"))
    by (right; exists PyNone; reflexivity).
  split; [reflexivity |]. split; [exact Hclash |].
  apply (wrapper_deferred_keyword_collision esorted [] kw); [reflexivity | exact Hclash].
Defined.

(** ** The arguments of a call of a deferred operation *)

(** X9: a deferred operation that a wrapper of [sum], [sorted] or [reversed]
    made takes the iterable and nothing more: any further positional
    argument or any keyword with it raises [TypeError], and the builtin is not
    applied. *)
Theorem PartialPipe_call_rejects_extras
    (p : PartialPipe.t) (s : value) (extra : list value) (kw : kwdict) :
  extra ≠ [] ∨ kw ≠ ∅ →
  PartialPipe.call (s :: extra) kw p = (Raise TypeError, p)
  ∧ call (Pipe p) (s :: extra) kw = (Raise TypeError, Pipe p).
Proof.
  intros Hextra.
  assert (Hbind :
    bind_args (Signature ["self"] ["iterable"] false false) (s :: extra) kw
    = Raise TypeError).
  { unfold bind_args. simpl.
    destruct (bool_decide (kw !! "self" = None)); [| reflexivity]. simpl.
    destruct (kw !! "iterable"); [reflexivity |]. simpl.
    destruct Hextra as [Hpos|Hkw].
    - rewrite bool_decide_false by exact Hpos. reflexivity.
    - unfold no_keywords. rewrite (bool_decide_false (kw = ∅)) by exact Hkw.
      rewrite andb_false_r. reflexivity. }
  assert (Hcall : PartialPipe.call (s :: extra) kw p = (Raise TypeError, p))
    by (unfold PartialPipe.call; rewrite Hbind; reflexivity).
  split; [exact Hcall |]. unfold call. rewrite Hcall. reflexivity.
Qed.

Lemma PartialPipe_call_rejects_extras_witness :
  let p := PartialPipe.mk BSum [] ∅ in
  let s := pylist (ints [1; 2; 3]) in
  ([pyint 10] ≠ [] ∨ (∅ : kwdict) ≠ ∅)
  ∧ PartialPipe.call [s; pyint 10] ∅ p = (Raise TypeError, p)
  ∧ call (Pipe p) [s; pyint 10] ∅ = (Raise TypeError, Pipe p).
Proof.
  intros p s.
  assert (Hextra : [pyint 10] ≠ [] ∨ (∅ : kwdict) ≠ ∅) by (left; discriminate).
  split; [exact Hextra |].
  apply (PartialPipe_call_rejects_extras p s [pyint 10] ∅ Hextra).
Defined.

(** X10: a deferred operation of either family called with no positional
    argument and no keyword [iterable] raises [TypeError]. *)
Theorem deferred_call_without_iterable_raises (kw : kwdict) :
  kw !! "iterable" = None →
  (∀ p, call (Partial p) [] kw = (Raise TypeError, Partial p))
  ∧ (∀ p, call (Pipe p) [] kw = (Raise TypeError, Pipe p)).
Proof.
  intros Hiterable.
  assert (Hbind : ∀ star,
    bind_args (Signature ["self"] ["iterable"] star star) [] kw = Raise TypeError).
  { intros star. unfold bind_args. simpl.
    destruct (bool_decide (kw !! "self" = None)); [| reflexivity]. simpl.
    rewrite Hiterable. reflexivity. }
  split; intros p; unfold call.
  - unfold PartialBase.call. rewrite Hbind. reflexivity.
  - unfold PartialPipe.call. rewrite Hbind. reflexivity.
Qed.

Lemma deferred_call_without_iterable_raises_witness :
  (∅ : kwdict) !! "iterable" = None
  ∧ (∀ p, call (Partial p) [] ∅ = (Raise TypeError, Partial p))
  ∧ (∀ p, call (Pipe p) [] ∅ = (Raise TypeError, Pipe p)).
Proof.
  split; [reflexivity |].
  apply (deferred_call_without_iterable_raises ∅). reflexivity.
Defined.

(** X11: the iterable may be given by keyword: for a deferred operation of
    the map, filter, reduce family, [d(iterable=s, **kw)] is [d(s, **kw)]; for
    one of the other family, [d(iterable=s)] is [d(s)]. *)
Theorem deferred_call_iterable_by_keyword (s : value) (kw : kwdict) :
  kw !! "self" = None → kw !! "iterable" = None →
  (∀ p, call (Partial p) [] (<["iterable" := s]> kw) = call (Partial p) [s] kw)
  ∧ (∀ p, call (Pipe p) [] {["iterable" := s]} = call (Pipe p) [s] ∅).
Proof.
  intros Hself Hiterable. split; intros p; unfold call.
  - unfold PartialBase.call.
    rewrite (bind_iterable_and_rest s [] kw Hself Hiterable).
    unfold bind_args. simpl.
    rewrite lookup_insert_ne by discriminate.
    rewrite bool_decide_true by exact Hself. simpl.
    rewrite lookup_insert_eq. simpl.
    rewrite delete_insert_id by exact Hiterable. reflexivity.
  - reflexivity.
Qed.

Lemma deferred_call_iterable_by_keyword_witness :
  let s := pylist (ints [1; 2; 3]) in
  (∅ : kwdict) !! "self" = None ∧ (∅ : kwdict) !! "iterable" = None
  ∧ (∀ p, call (Partial p) [] (<["iterable" := s]> ∅) = call (Partial p) [s] ∅)
  ∧ (∀ p, call (Pipe p) [] {["iterable" := s]} = call (Pipe p) [s] ∅).
Proof.
  intros s. split; [reflexivity |]. split; [reflexivity |].
  apply (deferred_call_iterable_by_keyword s ∅); reflexivity.
Defined.

(** ** Pipelines *)

Lemma piped_into_partial (r : result value) (p : PartialBase.t) :
  piped (Value <$> r) (Ok (Partial p))
  = (v ← r;
     Value <$> call_builtin (PartialBase.transformation p)
       (PartialBase.function p :: v :: PartialBase.args p) (PartialBase.kwargs p)).
Proof.
  destruct r as [v|e]; [| reflexivity].
  unfold piped. csimpl. unfold pipe.
  rewrite PartialBase_ror_builtin. reflexivity.
Qed.

(** X12: a pipeline composes the builtins from left to right:
    [s | emap(f) | efilter(g) | ereduce(h)] is
    [reduce(h, filter(g, map(f, s)))], for every [s], and an exception of a
    stage is the exception of the pipeline. *)
Theorem pipeline_composes (f g h s : value) :
  piped (piped (piped (Ok (Value s)) (emap f PyNone)) (efilter g PyNone)) (ereduce h [])
  = (m ← py_map [f; s] ∅;
     k ← py_filter [g; m] ∅;
     Value <$> py_reduce [h; k] ∅).
Proof.
  change (Ok (Value s)) with (Value <$> Ok s).
  change (emap f PyNone)
    with (Ok (Partial (PartialBase.mk PartialBase.PartialMap f [] ∅))).
  change (efilter g PyNone)
    with (Ok (Partial (PartialBase.mk PartialBase.PartialFilter g [] ∅))).
  change (ereduce h [])
    with (Ok (Partial (PartialBase.mk PartialBase.PartialReduce h [] ∅))).
  rewrite piped_into_partial. csimpl.
  change (call_builtin BMap [f; s] ∅) with (py_map [f; s] ∅).
  rewrite piped_into_partial. csimpl.
  destruct (py_map [f; s] ∅) as [m|e]; [| reflexivity]. csimpl.
  change (call_builtin BFilter [g; m] ∅) with (py_filter [g; m] ∅).
  rewrite piped_into_partial.
  destruct (py_filter [g; m] ∅) as [k|e]; reflexivity.
Qed.

Lemma py_filter_iterable (pos : list value) (kw : kwdict) (k : value) :
  py_filter pos kw = Ok k → hasattr_iter k = true.
Proof.
  unfold py_filter. destruct (no_keywords kw); [| discriminate].
  destruct pos as [|f [|s [|? ?]]]; try discriminate.
  destruct (iter s); [| discriminate]. csimpl. intros [= <-]. reflexivity.
Qed.

(** X13: when the nested immediate calls go through, they give what the
    pipeline gives: if [emap(f, s)] is the value [m] and [efilter(g, m)] the
    value [k], then [ereduce(h, k)] is [s | emap(f) | efilter(g) | ereduce(h)]. *)
Theorem nested_calls_are_the_pipeline (f g h s m k : value) :
  emap f s = Ok (Value m) → efilter g m = Ok (Value k) →
  ereduce h [k]
  = piped (piped (piped (Ok (Value s)) (emap f PyNone)) (efilter g PyNone))
      (ereduce h []).
Proof.
  intros Hmap Hfilter. rewrite pipeline_composes.
  unfold emap in Hmap. destruct (truthy s); [| discriminate].
  destruct (py_map [f; s] ∅) as [m'|e]; [| discriminate].
  injection Hmap as ->. csimpl.
  unfold efilter in Hfilter. destruct (truthy m); [| discriminate].
  destruct (py_filter [g; m] ∅) as [k'|e] eqn:Hk; [| discriminate].
  injection Hfilter as ->. csimpl.
  unfold ereduce. rewrite (py_filter_iterable _ _ _ Hk). reflexivity.
Qed.

Lemma nested_calls_are_the_pipeline_witness :
  let s := pylist (ints [1; 2; 3]) in
  let m := VIter MapObject (Ok <$> ints [2; 4; 6]) in
  let k := VIter FilterObject (Ok <$> ints [2; 4; 6]) in
  emap double s = Ok (Value m) ∧ efilter greater_than_1 m = Ok (Value k)
  ∧ ereduce add [k]
    = piped (piped (piped (Ok (Value s)) (emap double PyNone))
               (efilter greater_than_1 PyNone))
        (ereduce add [])
  ∧ ereduce add [k] = Ok (Value (pyint 12)).
Proof.
  intros s m k. split; [reflexivity |]. split; [reflexivity |].
  split; [| reflexivity].
  apply (nested_calls_are_the_pipeline double greater_than_1 add s m k);
    reflexivity.
Defined.

(** ** What the wrapped builtins compute on lists *)

Lemma map_items_single (f : value) (l : list data) :
  map_items f (Ok <$> l) [] = (λ x, call_function f [VData x]) <$> l.
Proof.
  induction l as [|x l IH]; [reflexivity |].
  csimpl. rewrite IH. reflexivity.
Qed.

(** X14: a list piped into [emap(f)], the empty list too, gives a map object
    whose items are the outcomes of [f] on each element, in order; with a
    total function [g], they are the images of the elements. *)
Theorem emap_on_list (l : list data) :
  (∀ f, (d ← emap f PyNone; (pipe (pylist l) d).1)
        = Ok (Value (VIter MapObject ((λ x, call_function f [VData x]) <$> l))))
  ∧ (∀ g, (d ← emap (unary g) PyNone; (pipe (pylist l) d).1)
          = Ok (Value (VIter MapObject (Ok <$> (g <$> l))))).
Proof.
  assert (Hmap : ∀ f, (d ← emap f PyNone; (pipe (pylist l) d).1)
    = Ok (Value (VIter MapObject ((λ x, call_function f [VData x]) <$> l)))).
  { intros f.
    change (Ok (Value (VIter MapObject (map_items f (Ok <$> l) [])))
            = Ok (Value (VIter MapObject ((λ x, call_function f [VData x]) <$> l)))).
    rewrite map_items_single. reflexivity. }
  split; [exact Hmap |].
  intros g. rewrite Hmap. rewrite <- list_fmap_compose. reflexivity.
Qed.

Lemma filter_items_predicate (p : data → bool) (l : list data) :
  filter_items (predicate p) (Ok <$> l) = Ok <$> List.filter p l.
Proof.
  induction l as [|x l IH]; [reflexivity |].
  csimpl. destruct (p x); csimpl; rewrite IH; reflexivity.
Qed.

Lemma filter_items_none (l : list data) :
  filter_items PyNone (Ok <$> l) = Ok <$> List.filter data_truthy l.
Proof.
  induction l as [|x l IH]; [reflexivity |].
  csimpl. destruct (data_truthy x); csimpl; rewrite IH; reflexivity.
Qed.

(** X15: a list piped into [efilter(p)], the empty list too, gives a filter
    object over the elements on which the predicate [p] is true, in order;
    [efilter(None)] keeps the elements that are true. *)
Theorem efilter_on_list (l : list data) :
  (∀ p, (d ← efilter (predicate p) PyNone; (pipe (pylist l) d).1)
        = Ok (Value (VIter FilterObject (Ok <$> List.filter p l))))
  ∧ (d ← efilter PyNone PyNone; (pipe (pylist l) d).1)
    = Ok (Value (VIter FilterObject (Ok <$> List.filter data_truthy l))).
Proof.
  split.
  - intros p.
    change (Ok (Value (VIter FilterObject (filter_items (predicate p) (Ok <$> l))))
            = Ok (Value (VIter FilterObject (Ok <$> List.filter p l)))).
    rewrite filter_items_predicate. reflexivity.
  - change (Ok (Value (VIter FilterObject (filter_items PyNone (Ok <$> l))))
            = Ok (Value (VIter FilterObject (Ok <$> List.filter data_truthy l)))).
    rewrite filter_items_none. reflexivity.
Qed.

Lemma reduce_items_binary (op : data → data → data) (l : list data) (a : data) :
  reduce_items (binary op) (Some (VData a)) (Ok <$> l)
  = Ok (VData (fold_left op l a)).
Proof.
  revert a. induction l as [|x l IH]; intros a; [reflexivity |].
  csimpl. apply IH.
Qed.

(** X16: a list piped into [ereduce(op)] folds it from the left, starting
    from its first element, or from the initial value given at call time; the
    empty list with no initial value raises [TypeError], and with one gives it
    back. *)
Theorem ereduce_on_list (op : data → data → data) :
  (∀ x l, (d ← ereduce (binary op) []; (pipe (pylist (x :: l)) d).1)
          = Ok (Value (VData (fold_left op l x))))
  ∧ (∀ l initial,
       (d ← ereduce (binary op) []; (call d [pylist l; VData initial] ∅).1)
       = Ok (Value (VData (fold_left op l initial))))
  ∧ (∀ f, (d ← ereduce f []; (pipe (pylist []) d).1) = Raise TypeError)
  ∧ (∀ f initial,
       (d ← ereduce f []; (call d [pylist []; initial] ∅).1) = Ok (Value initial)).
Proof.
  split; [| split; [| split; [reflexivity | reflexivity]]].
  - intros x l.
    change (Value <$> reduce_items (binary op) (Some (VData x)) (Ok <$> l)
            = Ok (Value (VData (fold_left op l x)))).
    rewrite reduce_items_binary. reflexivity.
  - intros l initial.
    change (Value <$> reduce_items (binary op) (Some (VData initial)) (Ok <$> l)
            = Ok (Value (VData (fold_left op l initial)))).
    rewrite reduce_items_binary. reflexivity.
Qed.

Lemma sum_items_ints (zs : list Z) (a : Z) :
  sum_items (pyint a) (Ok <$> ints zs) = Ok (pyint (a + zsum zs)).
Proof.
  revert a. induction zs as [|z zs IH]; intros a.
  - simpl. unfold zsum. simpl. rewrite Z.add_0_r. reflexivity.
  - csimpl. change (sum_items (pyint (a + z)) (Ok <$> ints zs)
                    = Ok (pyint (a + zsum (z :: zs)))).
    rewrite IH. unfold zsum. simpl. rewrite Z.add_assoc. reflexivity.
Qed.

(** X17: on a list of integers, [esum(l)] and [l | esum] are the sum of the
    list, zero for the empty list, and [esum(n)] applied to the list, called
    or piped, adds the stored start [n]. *)
Theorem esum_on_integers (zs : list Z) :
  (call (Wrapper esum) [pylist (ints zs)] ∅).1 = Ok (Value (pyint (zsum zs)))
  ∧ (pipe (pylist (ints zs)) (Wrapper esum)).1 = Ok (Value (pyint (zsum zs)))
  ∧ (∀ n, (d ← (call (Wrapper esum) [pyint n] ∅).1; (call d [pylist (ints zs)] ∅).1)
          = Ok (Value (pyint (n + zsum zs))))
  ∧ (∀ n, (d ← (call (Wrapper esum) [pyint n] ∅).1; (pipe (pylist (ints zs)) d).1)
          = Ok (Value (pyint (n + zsum zs)))).
Proof.
  assert (H0 : Value <$> sum_items (pyint 0) (Ok <$> ints zs)
               = Ok (Value (pyint (zsum zs))))
    by (rewrite sum_items_ints; reflexivity).
  assert (Hn : ∀ n, Value <$> sum_items (pyint n) (Ok <$> ints zs)
               = Ok (Value (pyint (n + zsum zs))))
    by (intros n; rewrite sum_items_ints; reflexivity).
  split; [exact H0 |]. split; [exact H0 |]. split; intros n; exact (Hn n).
Qed.

Lemma py_sorted_ints (zs : list Z) (kw : kwdict) (descending : bool) :
  no_keywords (delete "key" (delete "reverse" kw)) = true →
  kw !! "key" = None →
  kw !! "reverse" = (if descending then Some (pybool true) else None) →
  py_sorted [pylist (ints zs)] kw
  = Ok (pylist (ints (if descending then reverse (zsort (reverse zs)) else zsort zs))).
Proof.
  intros Hkeywords Hkey Hreverse.
  unfold py_sorted, pylist. simpl iter. simpl mbind at 1.
  rewrite consume_items. simpl mbind at 1.
  rewrite Hkeywords, Hkey, Hreverse. unfold ints.
  destruct descending; csimpl; rewrite <- list_fmap_compose;
    change ((λ x, (x, x)) ∘ DInt) with keyed_int.
  - rewrite <- fmap_reverse, sort_keyed_int. csimpl.
    rewrite <- fmap_reverse, <- list_fmap_compose. reflexivity.
  - rewrite sort_keyed_int. csimpl.
    rewrite <- list_fmap_compose. reflexivity.
Qed.

(** X18: on a list of integers, the empty one too, [esorted(l)],
    [l | esorted] and [esorted()(l)] all return the same list: a permutation
    of [l] in ascending order. *)
Theorem esorted_on_integers (zs : list Z) :
  ∃ out,
    Sorted Z.le out ∧ Permutation zs out
    ∧ (call (Wrapper esorted) [pylist (ints zs)] ∅).1 = Ok (Value (pylist (ints out)))
    ∧ (pipe (pylist (ints zs)) (Wrapper esorted)).1 = Ok (Value (pylist (ints out)))
    ∧ (d ← (call (Wrapper esorted) [] ∅).1; (call d [pylist (ints zs)] ∅).1)
      = Ok (Value (pylist (ints out))).
Proof.
  exists (zsort zs).
  split; [apply zsort_sorted |]. split; [apply zsort_perm |].
  assert (H : Value <$> py_sorted [pylist (ints zs)] ∅
              = Ok (Value (pylist (ints (zsort zs)))))
    by (rewrite (py_sorted_ints zs ∅ false); reflexivity).
  split; [exact H |]. split; exact H.
Qed.

(** X19: with [reverse=True] stored, [esorted(reverse=True)] applied to a
    list of integers, called or piped, returns a permutation of it in
    descending order. *)
Theorem esorted_reverse_on_integers (zs : list Z) :
  ∃ out,
    Sorted (flip Z.le) out ∧ Permutation zs out
    ∧ (d ← (call (Wrapper esorted) [] {["reverse" := pybool true]}).1;
       (call d [pylist (ints zs)] ∅).1)
      = Ok (Value (pylist (ints out)))
    ∧ (d ← (call (Wrapper esorted) [] {["reverse" := pybool true]}).1;
       (pipe (pylist (ints zs)) d).1)
      = Ok (Value (pylist (ints out))).
Proof.
  exists (reverse (zsort (reverse zs))).
  split; [apply Sorted_reverse, zsort_sorted |].
  split.
  { rewrite reverse_Permutation, <- zsort_perm, reverse_Permutation. reflexivity. }
  assert (H : Value <$> py_sorted [pylist (ints zs)] {["reverse" := pybool true]}
              = Ok (Value (pylist (ints (reverse (zsort (reverse zs)))))))
    by (rewrite (py_sorted_ints zs {["reverse" := pybool true]} true); reflexivity).
  split; exact H.
Qed.

(** X20: [ereversed(l)], [l | ereversed] and [ereversed()(l)] give a lazy
    object over the elements of the list [l] from last to first; a lazy
    iterator has [__iter__], so [ereversed] applies [reversed] to it at once,
    and that raises [TypeError], as piping it does: two [ereversed] in a row
    always fail. *)
Theorem ereversed_on_list_and_iterator :
  (∀ l,
     let r := Ok (Value (VIter ReversedObject (Ok <$> reverse l))) in
     (call (Wrapper ereversed) [pylist l] ∅).1 = r
     ∧ (pipe (pylist l) (Wrapper ereversed)).1 = r
     ∧ (d ← (call (Wrapper ereversed) [] ∅).1; (call d [pylist l] ∅).1) = r
     ∧ (d ← (call (Wrapper ereversed) [] ∅).1; (pipe (pylist l) d).1) = r)
  ∧ (∀ k items,
       (call (Wrapper ereversed) [VIter k items] ∅).1 = Raise TypeError
       ∧ (pipe (VIter k items) (Wrapper ereversed)).1 = Raise TypeError)
  ∧ (∀ l,
       piped (piped (Ok (Value (pylist l))) (Ok (Wrapper ereversed)))
         (Ok (Wrapper ereversed))
       = Raise TypeError).
Proof.
  split; [| split].
  - intros l r. repeat split.
  - intros k items. split; reflexivity.
  - intros l. reflexivity.
Qed.

(** ** Keywords and further iterables at call time *)

(** X21: [map], [filter] and [reduce] take no keyword, so a deferred
    operation of their family called with any keyword besides [iterable]
    raises [TypeError], whatever it stores. *)
Theorem deferred_call_with_keyword_raises
    (p : PartialBase.t) (s : value) (B : list value) (K2 : kwdict) :
  K2 !! "self" = None → K2 !! "iterable" = None → K2 ≠ ∅ →
  call (Partial p) (s :: B) K2 = (Raise TypeError, Partial p).
Proof.
  intros Hself Hiterable Hkw. unfold call, PartialBase.call.
  rewrite (bind_iterable_and_rest s B K2 Hself Hiterable).
  unfold PartialBase.__call__.
  assert (Hmerged : no_keywords (dict_merge (PartialBase.kwargs p) K2) = false).
  { unfold no_keywords, dict_merge. apply bool_decide_false.
    intros Hempty. apply Hkw. exact (map_positive_l _ _ Hempty). }
  unfold PartialBase.transformation.
  destruct (PartialBase.cls p); simpl;
    unfold py_map, py_filter, py_reduce; rewrite Hmerged; reflexivity.
Qed.

Lemma deferred_call_with_keyword_raises_witness :
  let p := PartialBase.mk PartialBase.PartialReduce add [] ∅ in
  let K2 : kwdict := {["initial" := pyint 0]} in
  K2 !! "self" = None ∧ K2 !! "iterable" = None ∧ K2 ≠ ∅
  ∧ call (Partial p) [pylist (ints [1; 2; 3])] K2 = (Raise TypeError, Partial p).
Proof.
  intros p K2.
  assert (Hkw : K2 ≠ ∅).
  { intros Hempty.
    assert (Hlookup : K2 !! "initial" = Some (pyint 0)) by reflexivity.
    rewrite Hempty in Hlookup. discriminate Hlookup. }
  split; [reflexivity |]. split; [reflexivity |]. split; [exact Hkw |].
  apply (deferred_call_with_keyword_raises p (pylist (ints [1; 2; 3])) [] K2);
    [reflexivity | reflexivity | exact Hkw].
Defined.

Lemma map_items_pair (op : data → data → data) (l1 l2 : list data) :
  map_items (binary op) (Ok <$> l1) [Ok <$> l2] = Ok <$> zip_with op l1 l2.
Proof.
  revert l2. induction l1 as [|x l1 IH]; intros l2; [reflexivity |].
  destruct l2 as [|y l2]; [reflexivity |].
  csimpl. rewrite IH. reflexivity.
Qed.

(** X22: a further list given at call time is a second iterable of [map]:
    [emap(op)(l1, l2)] yields [op] on the pairs of elements, up to the end of
    the shorter list; [efilter(f)(l1, l2)] raises [TypeError], as [filter]
    takes one iterable. *)
Theorem deferred_call_with_second_list (l1 l2 : list data) :
  (∀ op, (d ← emap (binary op) PyNone; (call d [pylist l1; pylist l2] ∅).1)
         = Ok (Value (VIter MapObject (Ok <$> zip_with op l1 l2))))
  ∧ (∀ f, (d ← efilter f PyNone; (call d [pylist l1; pylist l2] ∅).1)
          = Raise TypeError).
Proof.
  split; [| reflexivity].
  intros op.
  change (Ok (Value (VIter MapObject
            (map_items (binary op) (Ok <$> l1) [Ok <$> l2])))
          = Ok (Value (VIter MapObject (Ok <$> zip_with op l1 l2)))).
  rewrite map_items_pair. reflexivity.
Qed.
